(** * juju/model.py: the model state, its delta history and the entity views

    A shallow embedding of [ModelState] and [ModelEntity] of
    [juju/model.py].  The model state is a dict of dicts of deques
    ([state[entity_type][entity_id]] is the history of one entity); an
    entity object holds no data of its own, only the coordinates
    (type, id, history index) it reads the state with.  Python
    exceptions are modelled by an error type, Python integers by [Z]. *)

From stdpp Require Import gmap strings list fin_maps.
From Stdlib Require Import ZArith Lia.

Local Open Scope Z_scope.

(** ** Python values, exceptions *)

(** The values of an entity's data dict (the JSON payload of a delta). *)
Inductive pyval :=
  | PStr (s : string)
  | PInt (z : Z)
  | PBool (b : bool).

(** The exceptions the modelled code can raise. *)
Inductive exn :=
  | KeyError
  | IndexError
  | AttributeError
  | DeadEntityException.

Inductive result (A : Type) :=
  | Ok (a : A)
  | Raise (e : exn).
Arguments Ok {A} a.
Arguments Raise {A} e.

#[global] Instance result_ret : MRet result := fun A a => Ok a.
#[global] Instance result_bind : MBind result := fun A B f r =>
  match r with
  | Ok a => f a
  | Raise e => Raise e
  end.

(** A data dict, one snapshot of a history ([None] is Python's [None], the
    tombstone), and the history deque of one entity. *)
Abbreviation data_dict := (gmap string pyval).
Abbreviation snapshot := (option (gmap string pyval)).
Abbreviation history := (list (option (gmap string pyval))).

(** [ModelState.state]: entity type -> entity id -> history. *)
Abbreviation ModelState := (gmap string (gmap string (list (option (gmap string pyval))))).

(** Modelled from the spec: the delta classes of juju/delta.py are not part
    of the sources.  A delta is the spec's record
    [{kind, change, id, data}], read by [apply_delta] as [delta.entity],
    [delta.type], [delta.get_id()] and [delta.data]; the data is a mapping
    or null. *)
Record EntityDelta := {
  entity : string;
  type : string;
  get_id : string;
  data : snapshot
}.

(** Modelled from the spec: [get_entity_class] of juju/delta.py is not part of
    the sources; it gives the class of an entity type, and
    [ModelEntity.entity_type] is that class's name in lower case.  Following
    the spec's EntityView [{kind, id, model_ref, history_index, connected}]
    the view carries the kind it was built for. The model reference is the
    state passed to each method. *)
Record ModelEntity := {
  entity_type : string;
  entity_id : string;
  _history_index : Z;
  connected : bool
}.

(** ** Indexing a deque *)

(** [h[i]] for a Python sequence: a negative index counts from the end
    (the length is added once), and an index that is still out of range
    raises [IndexError]. *)
Definition py_getitem {A} (h : list A) (i : Z) : result A :=
  let j := if bool_decide (i < 0) then i + Z.of_nat (length h) else i in
  if bool_decide (j < 0) then Raise IndexError
  else match h !! Z.to_nat j with
       | Some x => Ok x
       | None => Raise IndexError
       end.

(** ** ModelState *)

(** [self.state[entity_type][entity_id]] *)
Definition entity_history (st : ModelState) (etype eid : string)
  : result history :=
  match st !! etype with
  | None => Raise KeyError
  | Some by_id =>
      match by_id !! eid with
      | None => Raise KeyError
      | Some h => Ok h
      end
  end.

(** [self.entity_history(entity_type, entity_id)[history_index]] *)
Definition entity_data (st : ModelState) (etype eid : string) (history_index : Z)
  : result snapshot :=
  h ← entity_history st etype eid;
  py_getitem h history_index.

(** [get_entity]: a negative index other than -1 is made absolute, the
    snapshot is read to see whether it exists ([IndexError] gives [None]),
    and the entity object is built at the computed index. *)
Definition get_entity (st : ModelState) (etype eid : string)
    (history_index : Z) (conn : bool) : result (option ModelEntity) :=
  idx ← (if bool_decide (history_index < 0 ∧ history_index ≠ -1)
         then h ← entity_history st etype eid;
              Ok (history_index + Z.of_nat (length h))
         else Ok history_index);
  match entity_data st etype eid idx with
  | Raise IndexError => Ok None
  | Raise e => Raise e
  | Ok _ =>
      Ok (Some {| entity_type := etype; entity_id := eid;
                  _history_index := idx; connected := conn |})
  end.

(** ** ModelEntity *)

(** The [data] property. *)
Definition entity_view_data (st : ModelState) (e : ModelEntity) : result snapshot :=
  entity_data st (entity_type e) (entity_id e) (_history_index e).

(** [__getattr__(name)] *)
Definition getattr (st : ModelState) (e : ModelEntity) (name : string)
  : result pyval :=
  d ← entity_view_data st e;
  match d with
  | None => Raise DeadEntityException
  | Some m =>
      match m !! name with
      | Some v => Ok v
      | None => Raise KeyError
      end
  end.

(** The [current] property. *)
Definition current (e : ModelEntity) : bool :=
  bool_decide (_history_index e = -1).

(** The [dead] property: [self.data is None or <latest data> is None]. *)
Definition dead (st : ModelState) (e : ModelEntity) : result bool :=
  d ← entity_view_data st e;
  match d with
  | None => Ok true
  | Some _ =>
      l ← entity_data st (entity_type e) (entity_id e) (-1);
      Ok (bool_decide (l = None))
  end.

(** The [alive] property. *)
Definition alive (st : ModelState) (e : ModelEntity) : result bool :=
  b ← dead st e; Ok (negb b).

(** [previous()] *)
Definition previous (st : ModelState) (e : ModelEntity)
  : result (option ModelEntity) :=
  get_entity st (entity_type e) (entity_id e) (_history_index e - 1) false.

(** [next()]: the connected flag is computed from [new_index], the entity
    is fetched at [self._history_index - 1]. *)
Definition next (st : ModelState) (e : ModelEntity)
  : result (option ModelEntity) :=
  if bool_decide (_history_index e = -1) then Ok None
  else
    let new_index := _history_index e + 1 in
    h ← entity_history st (entity_type e) (entity_id e);
    let conn := bool_decide (new_index = Z.of_nat (length h) - 1) in
    get_entity st (entity_type e) (entity_id e) (_history_index e - 1) conn.

(** [latest()] *)
Definition latest (st : ModelState) (e : ModelEntity)
  : result (option ModelEntity) :=
  if bool_decide (_history_index e = -1) then Ok (Some e)
  else get_entity st (entity_type e) (entity_id e) (-1) true.

(** ** Applying a delta *)

(** The history after [history.append(delta.data)] and, for a removal,
    [history.append(None)]. *)
Definition appended (h : history) (delta : EntityDelta) : history :=
  let h1 := h ++ [data delta] in
  if bool_decide (type delta = "remove"%string) then h1 ++ [None] else h1.

(** The state after the two [setdefault] calls and the appends: the
    history deque is created empty when missing and mutated in place. *)
Definition state_after (st : ModelState) (delta : EntityDelta) : ModelState :=
  let by_id := default ∅ (st !! entity delta) in
  let h := default [] (by_id !! get_id delta) in
  <[entity delta := <[get_id delta := appended h delta]> by_id]> st.

(** [apply_delta]: the new state, and the pair [(entity.previous(), entity)]
    read from it. *)
Definition apply_delta (st : ModelState) (delta : EntityDelta)
  : ModelState * result (option ModelEntity * ModelEntity) :=
  let st' := state_after st delta in
  (st',
   r ← get_entity st' (entity delta) (get_id delta) (-1) true;
   match r with
   | None => Raise AttributeError
   | Some e => old ← previous st' e; Ok (old, e)
   end).

(** ** Living entities *)

(** The dict comprehension of [_live_entity_map] over the items of
    [self.state.get(entity_type, {})]: an item is kept when
    [history[-1] is not None], and maps its id to [get_entity(type, id)].
    The items come in the order of [map_to_list]; the order only decides
    which exception is met first when several items raise. *)
Fixpoint live_items (st : ModelState) (etype : string)
    (items : list (string * history))
  : result (list (string * option ModelEntity)) :=
  match items with
  | [] => Ok []
  | (eid, h) :: rest =>
      l ← py_getitem h (-1);
      match l with
      | None => live_items st etype rest
      | Some _ =>
          e ← get_entity st etype eid (-1) true;
          r ← live_items st etype rest;
          Ok ((eid, e) :: r)
      end
  end.

Definition _live_entity_map (st : ModelState) (etype : string)
  : result (gmap string (option ModelEntity)) :=
  r ← live_items st etype (map_to_list (default ∅ (st !! etype)));
  Ok (list_to_map r).

Definition applications (st : ModelState) := _live_entity_map st "application".
Definition machines (st : ModelState) := _live_entity_map st "machine".
Definition units (st : ModelState) := _live_entity_map st "unit".

(** ** The operations of the API as calls on a state *)

Inductive api_call :=
  | CallApplyDelta (delta : EntityDelta)
  | CallGetEntity (etype eid : string) (history_index : Z) (conn : bool)
  | CallEntityData (etype eid : string) (history_index : Z)
  | CallLiveEntityMap (etype : string)
  | CallGetattr (e : ModelEntity) (name : string)
  | CallDead (e : ModelEntity)
  | CallPrevious (e : ModelEntity)
  | CallNext (e : ModelEntity)
  | CallLatest (e : ModelEntity).

(** The state a call leaves: only [apply_delta] assigns to the state; the
    other methods read it with [self.state[...]], [.get] and indexing. *)
Definition run_call (st : ModelState) (c : api_call) : ModelState :=
  match c with
  | CallApplyDelta delta => fst (apply_delta st delta)
  | _ => st
  end.

Definition run_calls (st : ModelState) (cs : list api_call) : ModelState :=
  foldl run_call st cs.

(** A state the watcher can build: the empty state of [__init__], then
    deltas applied one after the other. *)
Inductive reachable : ModelState → Prop :=
  | reachable_init : reachable ∅
  | reachable_apply st delta :
      reachable st → reachable (fst (apply_delta st delta)).

(** Every recorded history holds at least one snapshot. *)
Definition histories_nonempty (st : ModelState) : Prop :=
  ∀ etype eid h, entity_history st etype eid = Ok h → h ≠ [].

(** ** Concrete states used in the examples *)

Definition alive_data : data_dict := {[ "life"%string := PStr "alive" ]}.
Definition dying_data : data_dict := {[ "life"%string := PStr "dying" ]}.

Definition add_machine0 : EntityDelta :=
  {| entity := "machine"; type := "add"; get_id := "0"; data := Some alive_data |}.
Definition change_machine0 : EntityDelta :=
  {| entity := "machine"; type := "change"; get_id := "0"; data := Some dying_data |}.
Definition remove_machine0 : EntityDelta :=
  {| entity := "machine"; type := "remove"; get_id := "0"; data := Some dying_data |}.

(** The state after a list of deltas, applied in order. *)
Definition replay (st : ModelState) (deltas : list EntityDelta) : ModelState :=
  foldl (fun s d => fst (apply_delta s d)) st deltas.

(** The position a history index denotes, counted from the start of the
    history (the spec's effective index). *)
Definition effective_index (st : ModelState) (e : ModelEntity) : result Z :=
  h ← entity_history st (entity_type e) (entity_id e);
  Ok (if bool_decide (_history_index e < 0)
      then _history_index e + Z.of_nat (length h)
      else _history_index e).

(** The history of an entity, empty when none is recorded: what the two
    [setdefault] calls of [apply_delta] start from. *)
Definition history_or_empty (st : ModelState) (etype eid : string) : history :=
  default [] (default ∅ (st !! etype) !! eid).

Definition mk_entity (etype eid : string) (i : Z) (conn : bool) : ModelEntity :=
  {| entity_type := etype; entity_id := eid;
     _history_index := i; connected := conn |}.

(** The index [get_entity] builds the entity at. *)
Definition absolute_index (h : history) (i : Z) : Z :=
  if bool_decide (i < 0 ∧ i ≠ -1) then i + Z.of_nat (length h) else i.

(** The states after adding machine 0, changing it, and removing it. *)
Definition machine0_added : ModelState := fst (apply_delta ∅ add_machine0).
Definition machine0_changed : ModelState :=
  fst (apply_delta machine0_added change_machine0).
Definition machine0_removed : ModelState :=
  fst (apply_delta machine0_changed remove_machine0).

Definition change_back_machine0 : EntityDelta :=
  {| entity := "machine"; type := "change"; get_id := "0"; data := Some alive_data |}.

(** Machine 0 with three snapshots: alive, dying, alive. *)
Definition machine0_three : ModelState :=
  replay ∅ [add_machine0; change_machine0; change_back_machine0].

(** Two entities denote the same snapshot: same type, same id, same
    effective index. *)
Definition same_snapshot (st : ModelState) (a b : ModelEntity) : Prop :=
  entity_type a = entity_type b ∧ entity_id a = entity_id b ∧
  effective_index st a = effective_index st b.

(** The latest snapshot of a history is a data dict, not the tombstone. *)
Definition is_live (h : history) : bool :=
  match last h with
  | Some (Some _) => true
  | _ => false
  end.

(** The entry the comprehension of [_live_entity_map] makes of one item whose
    history is not empty. *)
Definition live_item (etype : string) (item : string * history)
  : option (string * option ModelEntity) :=
  if is_live item.2
  then Some (item.1, Some (mk_entity etype item.1 (-1) true))
  else None.

(** What the map of living entities holds for an id, by the specification:
    the connected entity at the latest index when the id has a history
    whose latest snapshot is not a tombstone, and no entry otherwise. *)
Definition live_entry (st : ModelState) (etype eid : string)
  : option (option ModelEntity) :=
  match entity_history st etype eid with
  | Ok h => if is_live h then Some (Some (mk_entity etype eid (-1) true)) else None
  | Raise _ => None
  end.

(** ** The statements of the specification *)

(** Old/new consistency as the specification words it: with [S] the latest
    snapshot of the entity before the delta, [old.data == S], or [old] is
    [None] when there was no snapshot; [new.data == D.data], or [new.dead]
    for a removal. *)
Definition old_new_consistent (st : ModelState) (delta : EntityDelta) : Prop :=
  let st' := fst (apply_delta st delta) in
  ∃ old new,
    snd (apply_delta st delta) = Ok (old, new) ∧
    match entity_data st (entity delta) (get_id delta) (-1) with
    | Ok prior => ∃ o, old = Some o ∧ entity_view_data st' o = Ok prior
    | Raise _ => old = None
    end ∧
    (if bool_decide (type delta = "remove"%string)
     then dead st' new = Ok true
     else entity_view_data st' new = Ok (data delta)).

(** What [apply_delta] returns: [new] is the connected entity at index -1;
    [old] is a disconnected entity of the same type and id.  For a removal
    [old] reads the data the delta carries (the snapshot put before the
    tombstone) and [new] is dead; otherwise [old] reads the snapshot that
    was the latest before the delta and [new] reads the delta's data. *)
Definition old_new_result (st : ModelState) (delta : EntityDelta) : Prop :=
  let st' := fst (apply_delta st delta) in
  ∃ old new,
    snd (apply_delta st delta) = Ok (Some old, new) ∧
    new = mk_entity (entity delta) (get_id delta) (-1) true ∧
    entity_type old = entity delta ∧ entity_id old = get_id delta ∧
    connected old = false ∧
    (if bool_decide (type delta = "remove"%string)
     then entity_view_data st' old = Ok (data delta) ∧
          entity_view_data st' new = Ok None ∧
          dead st' new = Ok true
     else (∃ prior, entity_data st (entity delta) (get_id delta) (-1) = Ok prior ∧
                entity_view_data st' old = Ok prior) ∧
          entity_view_data st' new = Ok (data delta)).

(** A removal of machine 0 that carries no data. *)
Definition remove_machine0_null : EntityDelta :=
  {| entity := "machine"; type := "remove"; get_id := "0"; data := None |}.

(** The removal as the specification words it: when the entity has a prior
    data mapping [S] as its latest snapshot, the removal appends [S] and
    then the tombstone, and [S] is read one index before the tombstone. *)
Definition removal_appends_prior_data (st : ModelState) (delta : EntityDelta)
  : Prop :=
  let st' := fst (apply_delta st delta) in
  match entity_history st (entity delta) (get_id delta) with
  | Ok h =>
      match py_getitem h (-1) with
      | Ok (Some prior) =>
          entity_history st' (entity delta) (get_id delta) =
            Ok (h ++ [Some prior; None]) ∧
          entity_data st' (entity delta) (get_id delta) (-2) = Ok (Some prior)
      | _ => True
      end
  | Raise _ => True
  end.

(** ** ModelObserver *)

(** The change type [__call__] dispatches on: ['add'] when [old is None and
    new is not None], the type of the delta otherwise. *)
Definition handler_type (delta : EntityDelta) (old new : option ModelEntity)
  : string :=
  match old, new with
  | None, Some _ => "add"%string
  | _, _ => type delta
  end.

(** ['on_{}_{}'.format(delta.entity, type_)] *)
Definition handler_name (delta : EntityDelta) (old new : option ModelEntity)
  : string :=
  ("on_" +:+ entity delta +:+ "_" +:+ handler_type delta old new)%string.

(** [getattr(self, handler_name, self.on_change)], for an observer whose
    attributes are the names in [attrs]: the name of the method called. *)
Definition observer_method (attrs : gset string) (delta : EntityDelta)
    (old new : option ModelEntity) : string :=
  let name := handler_name delta old new in
  if bool_decide (name ∈ attrs) then name else "on_change"%string.

(** ** Observers of the model and the watcher loop *)

(** One call [o(delta, old_obj, new_obj, self)] scheduled by
    [_notify_observers]; an observer is identified by a number. *)
Record notification := {
  note_observer : nat;
  note_delta : EntityDelta;
  note_old : option ModelEntity;
  note_new : ModelEntity
}.

(** [add_observer]: [self.observers.add(callable_)] on a set. *)
Definition add_observer (observers : gset nat) (callable_ : nat) : gset nat :=
  {[ callable_ ]} ∪ observers.

(** [_notify_observers]: one scheduled call for each observer of the set. *)
Definition _notify_observers (observers : gset nat) (delta : EntityDelta)
    (old : option ModelEntity) (new : ModelEntity) : list notification :=
  (fun o => {| note_observer := o; note_delta := delta;
               note_old := old; note_new := new |}) <$> elements observers.

(** The body of the loop of [_watch] on one batch [results.deltas], taken
    after [get_entity_delta] (of juju/delta.py, not part of the sources) has
    made an entity delta of each: each delta is applied, then the observers
    are notified with the pair [apply_delta] returned.  The result is the
    state after the batch and the calls scheduled, in order. *)
Fixpoint watch_batch (st : ModelState) (observers : gset nat)
    (deltas : list EntityDelta) : ModelState * result (list notification) :=
  match deltas with
  | [] => (st, Ok [])
  | delta :: rest =>
      match apply_delta st delta with
      | (st', Raise e) => (st', Raise e)
      | (st', Ok (old_obj, new_obj)) =>
          let scheduled := _notify_observers observers delta old_obj new_obj in
          match watch_batch st' observers rest with
          | (st'', Raise e) => (st'', Raise e)
          | (st'', Ok more) => (st'', Ok (scheduled ++ more))
          end
      end
  end.

(** A call scheduled for a batch is well formed: it is for a delta of the
    batch and an observer of the set, its old object is not [None] and its
    new object is the connected entity at index -1 of its delta. *)
Definition scheduled_for (observers : gset nat) (deltas : list EntityDelta)
    (n : notification) : Prop :=
  note_delta n ∈ deltas ∧ note_observer n ∈ observers ∧
  note_old n ≠ None ∧
  note_new n =
    mk_entity (entity (note_delta n)) (get_id (note_delta n)) (-1) true.

(** ** Counting the deltas of one entity *)

(** The delta is for the entity of this type and id. *)
Definition delta_for (etype eid : string) (delta : EntityDelta) : bool :=
  bool_decide (entity delta = etype ∧ get_id delta = eid).

(** The number of snapshots a list of deltas appends to the history of an
    entity: one for each of its deltas, and one more for each removal. *)
Fixpoint snapshots_appended (etype eid : string) (deltas : list EntityDelta)
  : nat :=
  match deltas with
  | [] => 0%nat
  | delta :: rest =>
      ((if delta_for etype eid delta
        then (if bool_decide (type delta = "remove"%string) then 2 else 1)
        else 0) + snapshots_appended etype eid rest)%nat
  end.

(** Every tombstone of a history comes right after a data dict. *)
Definition tombstones_follow_data (h : history) : Prop :=
  ∀ i, h !! i = Some None →
       ∃ m, (1 ≤ i)%nat ∧ h !! (i - 1)%nat = Some (Some m).

(** * Properties *)

(** ** Indexing *)

Section getitem.
Context {A : Type}.
Implicit Types (h : list A) (i : Z).

Lemma py_getitem_nonneg h i :
  0 ≤ i →
  py_getitem h i = match h !! Z.to_nat i with
                   | Some x => Ok x
                   | None => Raise IndexError
                   end.
Proof.
  intros Hi. unfold py_getitem.
  rewrite (bool_decide_eq_false_2 (i < 0)) by lia.
  by rewrite bool_decide_eq_false_2 by lia.
Qed.

Lemma py_getitem_neg h i :
  i < 0 → - Z.of_nat (length h) ≤ i →
  py_getitem h i = match h !! Z.to_nat (i + Z.of_nat (length h)) with
                   | Some x => Ok x
                   | None => Raise IndexError
                   end.
Proof.
  intros Hi Hlo. unfold py_getitem.
  rewrite (bool_decide_eq_true_2 (i < 0)) by lia.
  by rewrite bool_decide_eq_false_2 by lia.
Qed.

Lemma py_getitem_in_range h i :
  - Z.of_nat (length h) ≤ i < Z.of_nat (length h) →
  ∃ x, py_getitem h i = Ok x.
Proof.
  intros [Hlo Hhi]. destruct (decide (i < 0)) as [Hneg|Hpos].
  - rewrite py_getitem_neg by lia.
    destruct (lookup_lt_is_Some_2 h (Z.to_nat (i + Z.of_nat (length h))))
      as [x ->]; [lia | eauto].
  - rewrite py_getitem_nonneg by lia.
    destruct (lookup_lt_is_Some_2 h (Z.to_nat i)) as [x ->]; [lia | eauto].
Qed.

Lemma py_getitem_out_of_range h i :
  i < - Z.of_nat (length h) ∨ Z.of_nat (length h) ≤ i →
  py_getitem h i = Raise IndexError.
Proof.
  intros Hout. unfold py_getitem. cbv zeta. case_bool_decide as Hneg.
  - done.
  - rewrite lookup_ge_None_2; [done|].
    case_bool_decide; lia.
Qed.

Lemma py_getitem_Raise h i e :
  py_getitem h i = Raise e →
  e = IndexError ∧ (i < - Z.of_nat (length h) ∨ Z.of_nat (length h) ≤ i).
Proof.
  intros Hr.
  destruct (decide (- Z.of_nat (length h) ≤ i < Z.of_nat (length h)))
    as [Hin|Hout].
  - destruct (py_getitem_in_range h i Hin) as [x Hx]. congruence.
  - assert (i < - Z.of_nat (length h) ∨ Z.of_nat (length h) ≤ i) as Ho by lia.
    rewrite (py_getitem_out_of_range h i Ho) in Hr. by inversion Hr.
Qed.

Lemma py_getitem_last h x : py_getitem (h ++ [x]) (-1) = Ok x.
Proof.
  rewrite py_getitem_neg; rewrite ?length_app; simpl; try lia.
  replace (Z.to_nat (-1 + Z.of_nat (length h + 1))) with (length h) by lia.
  by rewrite list_lookup_middle.
Qed.

Lemma py_getitem_app_l h t i :
  0 ≤ i < Z.of_nat (length h) →
  py_getitem (h ++ t) i = py_getitem h i.
Proof.
  intros Hi. rewrite !py_getitem_nonneg by lia.
  by rewrite lookup_app_l by lia.
Qed.

Lemma py_getitem_length h x : py_getitem (h ++ [x]) (Z.of_nat (length h)) = Ok x.
Proof.
  rewrite py_getitem_nonneg by lia. rewrite Nat2Z.id.
  by rewrite list_lookup_middle.
Qed.

Lemma py_getitem_last_nonempty h :
  h ≠ [] → py_getitem h (-1) = py_getitem h (Z.of_nat (length h) - 1).
Proof.
  intros Hne. destruct h as [|a h]; [done|].
  rewrite py_getitem_neg, py_getitem_nonneg; simpl length; try lia.
  by replace (-1 + Z.of_nat (S (length h))) with (Z.of_nat (S (length h)) - 1) by lia.
Qed.
End getitem.

(** ** Reading the state *)

Lemma entity_history_Raise (st : ModelState) etype eid e :
  entity_history st etype eid = Raise e → e = KeyError.
Proof.
  unfold entity_history. destruct (st !! etype) as [by_id|]; [|congruence].
  destruct (by_id !! eid); congruence.
Qed.

Lemma history_or_empty_Ok (st : ModelState) etype eid h :
  entity_history st etype eid = Ok h → history_or_empty st etype eid = h.
Proof.
  unfold entity_history, history_or_empty.
  destruct (st !! etype) as [by_id|]; [|done]. simpl.
  destruct (by_id !! eid); simpl; congruence.
Qed.

Lemma history_or_empty_Raise (st : ModelState) etype eid e :
  entity_history st etype eid = Raise e → history_or_empty st etype eid = [].
Proof.
  unfold entity_history, history_or_empty.
  destruct (st !! etype) as [by_id|]; [|done]. simpl.
  destruct (by_id !! eid); simpl; congruence.
Qed.

Lemma entity_data_Ok (st : ModelState) etype eid h i :
  entity_history st etype eid = Ok h →
  entity_data st etype eid i = py_getitem h i.
Proof. intros Hh. unfold entity_data. by rewrite Hh. Qed.

Lemma entity_data_no_history (st : ModelState) etype eid i e :
  entity_history st etype eid = Raise e →
  entity_data st etype eid i = Raise KeyError.
Proof.
  intros Hh. unfold entity_data.
  rewrite (entity_history_Raise _ _ _ _ Hh) in Hh. by rewrite Hh.
Qed.

Lemma get_entity_Ok (st : ModelState) etype eid h i conn :
  entity_history st etype eid = Ok h →
  get_entity st etype eid i conn =
    match py_getitem h (absolute_index h i) with
    | Ok _ => Ok (Some (mk_entity etype eid (absolute_index h i) conn))
    | Raise _ => Ok None
    end.
Proof.
  intros Hh. unfold get_entity, absolute_index.
  case_bool_decide as Hi; rewrite ?Hh; simpl;
    rewrite (entity_data_Ok _ _ _ _ _ Hh).
  - destruct (py_getitem h (i + Z.of_nat (length h))) as [x|e] eqn:Hg; [done|].
    by destruct (py_getitem_Raise _ _ _ Hg) as [-> _].
  - destruct (py_getitem h i) as [x|e] eqn:Hg; [done|].
    by destruct (py_getitem_Raise _ _ _ Hg) as [-> _].
Qed.

Lemma get_entity_no_history (st : ModelState) etype eid i conn e :
  entity_history st etype eid = Raise e →
  get_entity st etype eid i conn = Raise KeyError.
Proof.
  intros Hh. pose proof (entity_history_Raise _ _ _ _ Hh) as ->.
  unfold get_entity. case_bool_decide; rewrite ?Hh; simpl; [done|].
  by rewrite (entity_data_no_history _ _ _ _ _ Hh).
Qed.

Lemma get_entity_latest (st : ModelState) etype eid h conn :
  entity_history st etype eid = Ok h → h ≠ [] →
  get_entity st etype eid (-1) conn = Ok (Some (mk_entity etype eid (-1) conn)).
Proof.
  intros Hh Hne. rewrite (get_entity_Ok _ _ _ _ _ _ Hh).
  unfold absolute_index. rewrite bool_decide_eq_false_2 by lia.
  destruct (py_getitem_in_range h (-1)) as [x ->]; [|done].
  destruct h; [done|]. simpl length. lia.
Qed.

(** ** The state after a delta *)

Lemma entity_history_state_after (st : ModelState) delta :
  entity_history (state_after st delta) (entity delta) (get_id delta) =
    Ok (appended (history_or_empty st (entity delta) (get_id delta)) delta).
Proof.
  unfold entity_history, state_after, history_or_empty.
  by rewrite !lookup_insert_eq.
Qed.

Lemma entity_history_state_after_other (st : ModelState) delta etype eid :
  ¬ (etype = entity delta ∧ eid = get_id delta) →
  entity_history (state_after st delta) etype eid = entity_history st etype eid.
Proof.
  intros Hne. unfold entity_history, state_after.
  destruct (decide (entity delta = etype)) as [<-|Hk].
  - rewrite lookup_insert_eq.
    rewrite lookup_insert_ne by (intros <-; by apply Hne).
    by destruct (st !! entity delta).
  - by rewrite lookup_insert_ne.
Qed.

Lemma appended_prefix h delta : ∃ suffix, appended h delta = h ++ suffix.
Proof.
  unfold appended. case_bool_decide.
  - exists [data delta; None]. by rewrite <- app_assoc.
  - by exists [data delta].
Qed.

Lemma appended_nonempty h delta : appended h delta ≠ [].
Proof.
  unfold appended. case_bool_decide; by destruct h.
Qed.

Lemma appended_remove h delta :
  type delta = "remove"%string → appended h delta = h ++ [data delta; None].
Proof.
  intros Ht. unfold appended. rewrite bool_decide_eq_true_2 by done.
  by rewrite <- app_assoc.
Qed.

Lemma appended_not_remove h delta :
  type delta ≠ "remove"%string → appended h delta = h ++ [data delta].
Proof. intros Ht. unfold appended. by rewrite bool_decide_eq_false_2. Qed.

(** A history only grows: what was recorded stays a prefix. *)
Lemma state_after_prefix (st : ModelState) delta etype eid h :
  entity_history st etype eid = Ok h →
  ∃ suffix, entity_history (state_after st delta) etype eid = Ok (h ++ suffix).
Proof.
  intros Hh.
  destruct (decide (etype = entity delta ∧ eid = get_id delta)) as [[-> ->]|Hne].
  - rewrite entity_history_state_after, (history_or_empty_Ok _ _ _ _ Hh).
    destruct (appended_prefix h delta) as [suffix ->]. eauto.
  - rewrite entity_history_state_after_other by done.
    exists []. by rewrite app_nil_r.
Qed.

Lemma state_after_nonempty (st : ModelState) delta :
  histories_nonempty st → histories_nonempty (state_after st delta).
Proof.
  intros Hst etype eid h Hh.
  destruct (decide (etype = entity delta ∧ eid = get_id delta)) as [[-> ->]|Hne].
  - rewrite entity_history_state_after in Hh. inversion Hh.
    apply appended_nonempty.
  - rewrite entity_history_state_after_other in Hh by done. eauto.
Qed.

Lemma reachable_nonempty (st : ModelState) :
  reachable st → histories_nonempty st.
Proof.
  induction 1 as [|st delta _ IH].
  - intros etype eid h Hh. unfold entity_history in Hh.
    by rewrite lookup_empty in Hh.
  - by apply state_after_nonempty.
Qed.

Lemma reachable_replay (st : ModelState) deltas :
  reachable st → reachable (replay st deltas).
Proof.
  revert st. induction deltas as [|d ds IH]; intros st Hst; [done|].
  apply IH. by constructor.
Qed.

(** ** What [apply_delta] returns *)

Lemma entity_history_nonempty_or_empty (st : ModelState) etype eid :
  history_or_empty st etype eid ≠ [] →
  entity_history st etype eid = Ok (history_or_empty st etype eid).
Proof.
  intros Hne. destruct (entity_history st etype eid) as [h|e] eqn:Hh.
  - by rewrite (history_or_empty_Ok _ _ _ _ Hh).
  - by rewrite (history_or_empty_Raise _ _ _ _ Hh) in Hne.
Qed.

Lemma view_data_state_after (st : ModelState) delta i conn :
  entity_view_data (state_after st delta)
    (mk_entity (entity delta) (get_id delta) i conn) =
  py_getitem (appended (history_or_empty st (entity delta) (get_id delta)) delta) i.
Proof.
  unfold entity_view_data. simpl.
  apply entity_data_Ok, entity_history_state_after.
Qed.

Lemma get_entity_new (st : ModelState) delta :
  get_entity (state_after st delta) (entity delta) (get_id delta) (-1) true =
    Ok (Some (mk_entity (entity delta) (get_id delta) (-1) true)).
Proof.
  eapply get_entity_latest; [apply entity_history_state_after|].
  apply appended_nonempty.
Qed.

(** With two snapshots or more in the history after the delta, [old] is the
    entity at the last position but one. *)
Lemma apply_delta_old_position (st : ModelState) delta :
  let h := appended (history_or_empty st (entity delta) (get_id delta)) delta in
  (2 ≤ length h)%nat →
  snd (apply_delta st delta) =
    Ok (Some (mk_entity (entity delta) (get_id delta)
                (Z.of_nat (length h) - 2) false),
        mk_entity (entity delta) (get_id delta) (-1) true).
Proof.
  intros h Hlen. unfold apply_delta. simpl snd.
  rewrite get_entity_new. simpl. unfold previous. simpl.
  rewrite (get_entity_Ok _ _ _ _ _ _ (entity_history_state_after st delta)).
  fold h. unfold absolute_index.
  rewrite bool_decide_eq_true_2 by lia.
  replace (-1 - 1 + Z.of_nat (length h)) with (Z.of_nat (length h) - 2) by lia.
  destruct (py_getitem_in_range h (Z.of_nat (length h) - 2)) as [x ->]; [lia|done].
Qed.

Lemma dead_of_tombstone (st : ModelState) e :
  entity_view_data st e = Ok None → dead st e = Ok true.
Proof. intros Hd. unfold dead. by rewrite Hd. Qed.

Lemma apply_delta_remove (st : ModelState) delta :
  type delta = "remove"%string → old_new_result st delta.
Proof.
  intros Hrm. unfold old_new_result. simpl fst.
  set (h0 := history_or_empty st (entity delta) (get_id delta)).
  pose proof (apply_delta_old_position st delta) as Hres. simpl in Hres.
  fold h0 in Hres. rewrite (appended_remove h0 delta Hrm) in Hres.
  rewrite length_app in Hres. simpl in Hres.
  eexists _, _. split; [apply Hres; lia|].
  rewrite bool_decide_eq_true_2 by done.
  repeat split.
  - rewrite view_data_state_after. fold h0.
    rewrite (appended_remove h0 delta Hrm).
    replace (Z.of_nat (length h0 + 2) - 2) with (Z.of_nat (length h0)) by lia.
    rewrite py_getitem_nonneg by lia. rewrite Nat2Z.id.
    by rewrite list_lookup_middle.
  - rewrite view_data_state_after. unfold appended.
    rewrite bool_decide_eq_true_2 by done. apply py_getitem_last.
  - apply dead_of_tombstone. rewrite view_data_state_after. unfold appended.
    rewrite bool_decide_eq_true_2 by done. apply py_getitem_last.
Qed.

Lemma apply_delta_update (st : ModelState) delta h :
  type delta ≠ "remove"%string →
  entity_history st (entity delta) (get_id delta) = Ok h → h ≠ [] →
  old_new_result st delta.
Proof.
  intros Hrm Hh Hne. unfold old_new_result. simpl fst.
  pose proof (apply_delta_old_position st delta) as Hres. simpl in Hres.
  rewrite (history_or_empty_Ok _ _ _ _ Hh) in Hres.
  rewrite (appended_not_remove h delta Hrm) in Hres.
  rewrite length_app in Hres. simpl in Hres.
  assert (1 ≤ length h)%nat as Hlen by (destruct h; [done | simpl; lia]).
  eexists _, _. split; [apply Hres; lia|].
  rewrite bool_decide_eq_false_2 by done.
  repeat split.
  - destruct (py_getitem_in_range h (-1)) as [prior Hprior]; [lia|].
    exists prior. split; [by rewrite (entity_data_Ok _ _ _ _ _ Hh)|].
    rewrite view_data_state_after, (history_or_empty_Ok _ _ _ _ Hh).
    rewrite (appended_not_remove h delta Hrm).
    replace (Z.of_nat (length h + 1) - 2) with (Z.of_nat (length h) - 1) by lia.
    rewrite py_getitem_app_l by lia.
    by rewrite <- py_getitem_last_nonempty.
  - rewrite view_data_state_after.
    rewrite (appended_not_remove _ delta Hrm). apply py_getitem_last.
Qed.

(** The pair returned after a removal, or for an entity that already has
    snapshots. *)
Lemma old_new_result_holds (st : ModelState) (delta : EntityDelta) :
  (type delta = "remove"%string ∨
   ∃ h, entity_history st (entity delta) (get_id delta) = Ok h ∧ h ≠ []) →
  old_new_result st delta.
Proof.
  intros [Hrm|(h & Hh & Hne)]; [by apply apply_delta_remove|].
  destruct (decide (type delta = "remove"%string)) as [Hrm|Hrm].
  - by apply apply_delta_remove.
  - by eapply apply_delta_update.
Qed.

Lemma entity_history_machine0_added :
  entity_history machine0_added "machine" "0" = Ok [Some alive_data].
Proof. vm_compute. reflexivity. Qed.

(** Old/new consistency as the specification words it fails on a removal:
    machine 0 has the one snapshot [alive_data]; after the removal carrying
    [dying_data], [old] reads [dying_data], not the prior snapshot. *)
Lemma old_new_consistent_counterexample :
  ¬ old_new_consistent machine0_added remove_machine0.
Proof.
  intros (old & new & Hres & Hold & _).
  assert (entity_data machine0_added (entity remove_machine0)
            (get_id remove_machine0) (-1) = Ok (Some alive_data)) as Hprior
    by (vm_compute; reflexivity).
  rewrite Hprior in Hold. destruct Hold as (o & -> & Ho).
  assert (snd (apply_delta machine0_added remove_machine0) =
          Ok (Some (mk_entity "machine" "0" 1 false),
              mk_entity "machine" "0" (-1) true)) as Hrun
    by (vm_compute; reflexivity).
  rewrite Hrun in Hres. inversion Hres; subst o new.
  assert (entity_view_data (fst (apply_delta machine0_added remove_machine0))
            (mk_entity "machine" "0" 1 false) = Ok (Some dying_data)) as Hread
    by (vm_compute; reflexivity).
  rewrite Hread in Ho.
  assert (dying_data !! "life"%string = alive_data !! "life"%string) as Heq
    by congruence.
  vm_compute in Heq. discriminate Heq.
Qed.

(** ** Navigation *)

(** [get_entity] answers [None] exactly for an index at or after the end
    of the history, or below minus twice its length: an index in
    [-2n, -n-1] is made absolute by adding [n], and the negative result
    counts from the end once more when the deque is indexed. *)
Lemma get_entity_None_iff (st : ModelState) etype eid h i conn :
  entity_history st etype eid = Ok h →
  get_entity st etype eid i conn = Ok None ↔
  (Z.of_nat (length h) ≤ i ∨ i < - 2 * Z.of_nat (length h)).
Proof.
  intros Hh. rewrite (get_entity_Ok _ _ _ _ _ _ Hh). unfold absolute_index.
  case_bool_decide as Hi.
  - destruct (py_getitem h (i + Z.of_nat (length h))) as [x|e] eqn:Hg.
    + split; [done|]. intros Hout.
      rewrite py_getitem_out_of_range in Hg by lia. done.
    + apply py_getitem_Raise in Hg. split; [lia | done].
  - destruct (py_getitem h i) as [x|e] eqn:Hg.
    + split; [done|]. intros Hout.
      rewrite py_getitem_out_of_range in Hg by lia. done.
    + apply py_getitem_Raise in Hg. split; [lia | done].
Qed.

(** An index from minus twice the length up to below minus the length is
    outside the history, and [get_entity] returns an entity for it. *)
Lemma get_entity_wraps (st : ModelState) etype eid h i conn :
  entity_history st etype eid = Ok h →
  - 2 * Z.of_nat (length h) ≤ i < - Z.of_nat (length h) →
  get_entity st etype eid i conn =
    Ok (Some (mk_entity etype eid (i + Z.of_nat (length h)) conn)).
Proof.
  intros Hh Hi. rewrite (get_entity_Ok _ _ _ _ _ _ Hh). unfold absolute_index.
  rewrite bool_decide_eq_true_2 by lia.
  destruct (py_getitem_in_range h (i + Z.of_nat (length h))) as [x ->];
    [lia | done].
Qed.

(** From an entity at a position [i] with [1 ≤ i] inside the history,
    [next()] returns the entity at position [i - 1]. *)
Lemma next_returns_previous_index (st : ModelState) etype eid h i conn :
  entity_history st etype eid = Ok h →
  1 ≤ i < Z.of_nat (length h) →
  next st (mk_entity etype eid i conn) =
    Ok (Some (mk_entity etype eid (i - 1)
                (bool_decide (i + 1 = Z.of_nat (length h) - 1)))).
Proof.
  intros Hh Hi. unfold next. simpl.
  rewrite bool_decide_eq_false_2 by lia. rewrite Hh. simpl.
  rewrite (get_entity_Ok _ _ _ _ _ _ Hh). unfold absolute_index.
  rewrite bool_decide_eq_false_2 by lia.
  destruct (py_getitem_in_range h (i - 1)) as [x ->]; [lia | done].
Qed.

(** Once the latest snapshot is the tombstone, every entity whose index is
    inside the history is dead. *)
Lemma dead_once_removed (st : ModelState) e h x :
  entity_history st (entity_type e) (entity_id e) = Ok h →
  py_getitem h (-1) = Ok None →
  entity_view_data st e = Ok x →
  dead st e = Ok true.
Proof.
  intros Hh Hlast Hx. unfold dead. rewrite Hx. simpl.
  destruct x as [m|]; [|done].
  by rewrite (entity_data_Ok _ _ _ _ _ Hh), Hlast.
Qed.

(** C7, at a failing input: machine 0 has one snapshot, so index -2 is
    outside its history, and [get_entity] returns an entity at index -1
    (the only snapshot) instead of [None]. *)
Theorem get_entity_below_range :
  entity_history machine0_added "machine" "0" = Ok [Some alive_data] ∧
  get_entity machine0_added "machine" "0" (-2) false =
    Ok (Some (mk_entity "machine" "0" (-1) false)).
Proof. split; vm_compute; reflexivity. Qed.

(** C2, at a failing input: machine 0 has three snapshots; the entity at
    index 1 is what [previous()] gives on the current one.  Its [next()]
    is the entity at index 0, flagged connected, while the entity at
    index 2 exists. *)
Theorem next_steps_back :
  let v := mk_entity "machine" "0" 1 false in
  previous machine0_three (mk_entity "machine" "0" (-1) true) = Ok (Some v) ∧
  next machine0_three v = Ok (Some (mk_entity "machine" "0" 0 true)) ∧
  get_entity machine0_three "machine" "0" (1 + 1) true =
    Ok (Some (mk_entity "machine" "0" 2 true)).
Proof. repeat split; vm_compute; reflexivity. Qed.

(** C3, at a failing input: from the entity at index 1 of three snapshots,
    [next()] then [previous()] ends on the entity at index -1 (effective
    index 2), and so does [previous()] then [next()]. *)
Theorem navigation_round_trip_broken :
  let st := machine0_three in
  let v := mk_entity "machine" "0" 1 false in
  let first := mk_entity "machine" "0" 0 in
  let last := mk_entity "machine" "0" (-1) false in
  effective_index st v = Ok 1 ∧
  (next st v = Ok (Some (first true)) ∧
   previous st (first true) = Ok (Some last)) ∧
  (previous st v = Ok (Some (first false)) ∧
   next st (first false) = Ok (Some last)) ∧
  effective_index st last = Ok 2 ∧
  ¬ same_snapshot st last v.
Proof.
  repeat split; try (vm_compute; reflexivity).
  intros (_ & _ & Heq). vm_compute in Heq. discriminate Heq.
Qed.

(** ** Removal *)

Lemma apply_delta_snd (st : ModelState) delta :
  snd (apply_delta st delta) =
    (old ← previous (state_after st delta)
             (mk_entity (entity delta) (get_id delta) (-1) true);
     Ok (old, mk_entity (entity delta) (get_id delta) (-1) true)).
Proof. unfold apply_delta. simpl snd. by rewrite get_entity_new. Qed.

(** C4, as amended: a removal makes the history two snapshots longer: the
    data the delta carries, whatever it is, then the tombstone.  The
    tombstone is the latest snapshot, the data of the delta is read one
    index before it, and [previous()] of the dead entity is an entity
    reading that data. *)
Theorem remove_appends_data_then_tombstone (st : ModelState) (delta : EntityDelta) :
  type delta = "remove"%string →
  let h := history_or_empty st (entity delta) (get_id delta) in
  let st' := fst (apply_delta st delta) in
  let new := mk_entity (entity delta) (get_id delta) (-1) true in
  entity_history st' (entity delta) (get_id delta) = Ok (h ++ [data delta; None]) ∧
  entity_data st' (entity delta) (get_id delta) (-1) = Ok None ∧
  entity_data st' (entity delta) (get_id delta) (-2) = Ok (data delta) ∧
  ∃ old, previous st' new = Ok (Some old) ∧
         entity_view_data st' old = Ok (data delta).
Proof.
  intros Hrm h st' new.
  assert (entity_history st' (entity delta) (get_id delta) =
          Ok (h ++ [data delta; None])) as Hh.
  { unfold st'. simpl fst. rewrite entity_history_state_after.
    by rewrite (appended_remove _ delta Hrm). }
  split; [done|]. rewrite !(entity_data_Ok _ _ _ _ _ Hh).
  split; [|split].
  - change (h ++ [data delta; None]) with (h ++ [data delta] ++ [None]).
    rewrite app_assoc. apply py_getitem_last.
  - rewrite py_getitem_neg; rewrite ?length_app; simpl length; try lia.
    replace (Z.to_nat (-2 + Z.of_nat (length h + 2))) with (length h) by lia.
    by rewrite list_lookup_middle.
  - destruct (apply_delta_remove st delta Hrm)
      as (old & new' & Hres & -> & _ & _ & _ & Hread).
    rewrite bool_decide_eq_true_2 in Hread by done.
    destruct Hread as (Hold & _ & _).
    rewrite apply_delta_snd in Hres. fold new in Hres.
    exists old. split; [|exact Hold].
    unfold st'. simpl fst.
    destruct (previous (state_after st delta) new) as [o|e]; simpl in Hres;
      congruence.
Qed.

Lemma remove_appends_data_then_tombstone_witness :
  entity_history (fst (apply_delta machine0_added remove_machine0))
    "machine" "0" = Ok ([Some alive_data] ++ [Some dying_data; None]).
Proof.
  apply (remove_appends_data_then_tombstone machine0_added remove_machine0).
  reflexivity.
Defined.

(** The removal as the specification words it fails when the delta carries
    no data: machine 0 has the one snapshot [alive_data]; the removal
    appends [None] twice, and the index before the tombstone reads [None],
    not the prior data. *)
Lemma removal_appends_prior_data_counterexample :
  ¬ removal_appends_prior_data machine0_added remove_machine0_null.
Proof.
  unfold removal_appends_prior_data.
  assert (entity_history machine0_added (entity remove_machine0_null)
            (get_id remove_machine0_null) = Ok [Some alive_data]) as Hh
    by exact entity_history_machine0_added.
  rewrite Hh.
  assert (py_getitem [Some alive_data] (-1) = Ok (Some alive_data)) as Hlast
    by apply (py_getitem_last []).
  rewrite Hlast. intros [_ Hread].
  assert (entity_data (fst (apply_delta machine0_added remove_machine0_null))
            (entity remove_machine0_null) (get_id remove_machine0_null) (-2)
          = Ok None) as Hnone by (vm_compute; reflexivity).
  rewrite Hnone in Hread. discriminate Hread.
Qed.

(** ** Attribute access *)

(** C6: on an entity whose snapshot is the tombstone, reading any name
    raises [DeadEntityException]; on an entity whose snapshot is a data
    dict, reading a name gives the value the dict holds for it, and
    raises [KeyError] when the dict has no such key. *)
Theorem getattr_dead_or_field (st : ModelState) (e : ModelEntity) (name : string) :
  (entity_view_data st e = Ok None →
   getattr st e name = Raise DeadEntityException) ∧
  (∀ m, entity_view_data st e = Ok (Some m) →
        getattr st e name = match m !! name with
                            | Some v => Ok v
                            | None => Raise KeyError
                            end).
Proof.
  unfold getattr. split.
  - by intros ->.
  - by intros m ->.
Qed.

Lemma getattr_dead_or_field_witness :
  getattr machine0_removed (mk_entity "machine" "0" (-1) true) "life" =
    Raise DeadEntityException ∧
  getattr machine0_removed (mk_entity "machine" "0" (-2) false) "life" =
    Ok (PStr "dying") ∧
  getattr machine0_removed (mk_entity "machine" "0" (-2) false) "series" =
    Raise KeyError.
Proof.
  split; [|split].
  - apply (getattr_dead_or_field machine0_removed
             (mk_entity "machine" "0" (-1) true) "life").
    vm_compute. reflexivity.
  - apply (proj2 (getattr_dead_or_field machine0_removed
             (mk_entity "machine" "0" (-2) false) "life") dying_data).
    vm_compute. reflexivity.
  - apply (proj2 (getattr_dead_or_field machine0_removed
             (mk_entity "machine" "0" (-2) false) "series") dying_data).
    vm_compute. reflexivity.
Defined.

(** ** Living entities *)

Lemma py_getitem_last_is (h : history) :
  h ≠ [] → ∃ x, last h = Some x ∧ py_getitem h (-1) = Ok x.
Proof.
  intros Hne. destruct h as [|a h] using rev_ind; [done|].
  exists a. split; [apply last_snoc | apply py_getitem_last].
Qed.

Lemma lookup_by_id_Some (st : ModelState) etype eid h :
  default ∅ (st !! etype) !! eid = Some h ↔ entity_history st etype eid = Ok h.
Proof.
  unfold entity_history. destruct (st !! etype) as [by_id|]; simpl.
  - destruct (by_id !! eid); split; congruence.
  - rewrite lookup_empty. split; congruence.
Qed.

Lemma lookup_by_id_None (st : ModelState) etype eid :
  default ∅ (st !! etype) !! eid = None ↔
  entity_history st etype eid = Raise KeyError.
Proof.
  unfold entity_history. destruct (st !! etype) as [by_id|]; simpl.
  - destruct (by_id !! eid); split; congruence.
  - by rewrite lookup_empty.
Qed.

Lemma live_items_omap (st : ModelState) etype items :
  (∀ eid h, (eid, h) ∈ items →
            entity_history st etype eid = Ok h ∧ h ≠ []) →
  live_items st etype items = Ok (omap (live_item etype) items).
Proof.
  induction items as [|[eid h] rest IH]; intros Hitems; [done|].
  destruct (Hitems eid h) as [Hh Hne]; [left|].
  simpl. destruct (py_getitem_last_is h Hne) as (x & Hlast & ->). simpl.
  rewrite IH by (intros ???; apply Hitems; by right).
  assert (live_item etype (eid, h) =
          match x with
          | Some _ => Some (eid, Some (mk_entity etype eid (-1) true))
          | None => None
          end) as ->.
  { unfold live_item, is_live. simpl. rewrite Hlast. by destruct x. }
  destruct x as [m|]; [|done].
  by rewrite (get_entity_latest _ _ _ _ _ Hh Hne).
Qed.

Lemma list_to_map_live_items etype (items : list (string * history)) eid :
  NoDup items.*1 →
  (list_to_map (omap (live_item etype) items)
     : gmap string (option ModelEntity)) !! eid =
  match (list_to_map items : gmap string history) !! eid with
  | Some h => if is_live h then Some (Some (mk_entity etype eid (-1) true)) else None
  | None => None
  end.
Proof.
  induction items as [|[k h] rest IH]; intros Hnd; [done|].
  apply NoDup_cons in Hnd as [Hk Hnd]. specialize (IH Hnd).
  rewrite list_to_map_cons.
  change (omap (live_item etype) ((k, h) :: rest)) with
    (match live_item etype (k, h) with
     | Some y => y :: omap (live_item etype) rest
     | None => omap (live_item etype) rest
     end).
  unfold live_item at 1. cbn [fst snd].
  destruct (decide (k = eid)) as [->|Hne].
  - rewrite lookup_insert_eq. destruct (is_live h).
    + rewrite list_to_map_cons. by rewrite lookup_insert_eq.
    + rewrite IH. by rewrite (not_elem_of_list_to_map_1 _ _ Hk).
  - rewrite lookup_insert_ne by done. destruct (is_live h); [|done].
    rewrite list_to_map_cons. by rewrite lookup_insert_ne.
Qed.

Lemma live_entity_map_lookup (st : ModelState) etype :
  histories_nonempty st →
  ∃ m, _live_entity_map st etype = Ok m ∧
       ∀ eid, m !! eid = live_entry st etype eid.
Proof.
  intros Hst. unfold _live_entity_map.
  rewrite live_items_omap.
  - eexists. split; [done|]. intros eid.
    rewrite list_to_map_live_items by apply NoDup_fst_map_to_list.
    rewrite list_to_map_to_list. unfold live_entry.
    destruct (default ∅ (st !! etype) !! eid) as [h|] eqn:Hl.
    + apply lookup_by_id_Some in Hl. by rewrite Hl.
    + apply lookup_by_id_None in Hl. by rewrite Hl.
  - intros eid h Hin. apply elem_of_map_to_list, lookup_by_id_Some in Hin.
    split; [done|]. by eapply Hst.
Qed.

(** C5: in any state the watcher can build, the map of living entities of
    a type holds exactly the ids whose latest snapshot is not the
    tombstone, each with the connected entity at index -1.  It is computed
    from the state it is called on: once a delta is applied, the map of
    the new state holds the delta's id exactly when the delta is not a
    removal and carries a data dict. *)
Theorem live_entity_map_exact (st : ModelState) (etype : string) :
  reachable st →
  (∃ m, _live_entity_map st etype = Ok m ∧
        ∀ eid, m !! eid = live_entry st etype eid) ∧
  (∀ delta, ∃ m, _live_entity_map (fst (apply_delta st delta)) (entity delta) = Ok m ∧
      m !! get_id delta =
        if bool_decide (type delta ≠ "remove"%string ∧ data delta ≠ None)
        then Some (Some (mk_entity (entity delta) (get_id delta) (-1) true))
        else None).
Proof.
  intros Hst. split.
  - by apply live_entity_map_lookup, reachable_nonempty.
  - intros delta.
    destruct (live_entity_map_lookup (fst (apply_delta st delta)) (entity delta))
      as (m & Hm & Hlook).
    { apply reachable_nonempty. by constructor. }
    exists m. split; [done|]. rewrite Hlook. unfold live_entry. simpl fst.
    rewrite entity_history_state_after. unfold is_live, appended.
    case_bool_decide as Hrm.
    + rewrite last_snoc. rewrite bool_decide_eq_false_2; [done|]. tauto.
    + rewrite last_snoc. destruct (data delta) as [d|].
      * by rewrite bool_decide_eq_true_2.
      * rewrite bool_decide_eq_false_2; [done|]. tauto.
Qed.

Lemma reachable_machine0_changed : reachable machine0_changed.
Proof. repeat constructor. Qed.

Lemma live_entity_map_exact_witness :
  ∃ m, _live_entity_map machine0_changed "machine" = Ok m ∧
       ∀ eid, m !! eid = live_entry machine0_changed "machine" eid.
Proof.
  exact (proj1 (live_entity_map_exact machine0_changed "machine"
                  reachable_machine0_changed)).
Defined.

(** ** Append-only histories *)

Lemma run_call_prefix (st : ModelState) c etype eid h :
  entity_history st etype eid = Ok h →
  ∃ suffix, entity_history (run_call st c) etype eid = Ok (h ++ suffix).
Proof.
  intros Hh. destruct c; simpl;
    try (exists []; by rewrite app_nil_r).
  by apply state_after_prefix.
Qed.

(** C8: whatever calls are made on a state, the history of an entity after
    them is its history before them followed by appended snapshots: every
    recorded snapshot stays at its position with its value. *)
Theorem history_append_only (st : ModelState) (calls : list api_call)
    (etype eid : string) (h : history) :
  entity_history st etype eid = Ok h →
  ∃ suffix,
    entity_history (run_calls st calls) etype eid = Ok (h ++ suffix) ∧
    ∀ i x, h !! i = Some x → (h ++ suffix) !! i = Some x.
Proof.
  revert st h. induction calls as [|c calls IH]; intros st h Hh.
  - exists []. rewrite app_nil_r. by split.
  - destruct (run_call_prefix st c etype eid h Hh) as (s1 & Hs1).
    destruct (IH _ _ Hs1) as (s2 & Hs2 & _).
    exists (s1 ++ s2). rewrite app_assoc. split; [exact Hs2|].
    intros i x Hi. rewrite <- app_assoc. by apply lookup_app_l_Some.
Qed.

Lemma history_append_only_witness :
  ∃ suffix,
    entity_history
      (run_calls machine0_added
         [CallApplyDelta change_machine0;
          CallNext (mk_entity "machine" "0" 0 false);
          CallLiveEntityMap "machine";
          CallApplyDelta remove_machine0])
      "machine" "0" = Ok ([Some alive_data] ++ suffix) ∧
    ∀ i x, [Some alive_data] !! i = Some x →
           ([Some alive_data] ++ suffix) !! i = Some x.
Proof.
  apply (history_append_only machine0_added).
  exact entity_history_machine0_added.
Defined.

(** ** Entities without a history *)

Lemma replay_no_history (st : ModelState) deltas etype eid :
  entity_history st etype eid = Raise KeyError →
  (∀ delta, delta ∈ deltas → ¬ (etype = entity delta ∧ eid = get_id delta)) →
  entity_history (replay st deltas) etype eid = Raise KeyError.
Proof.
  revert st. induction deltas as [|d ds IH]; intros st Hst Hds; [done|].
  simpl. apply IH.
  - rewrite entity_history_state_after_other; [done|]. apply Hds. by left.
  - intros delta Hin. apply Hds. by right.
Qed.

(** C10: when no delta was ever applied for a type and id, reading the
    history, reading a snapshot and [get_entity] all raise [KeyError],
    at any index; and in any state, [get_entity] answers [None] only for
    an entity that has a history, at an index outside of it. *)
Theorem no_history_raises_KeyError (deltas : list EntityDelta) (etype eid : string) :
  (∀ delta, delta ∈ deltas → ¬ (etype = entity delta ∧ eid = get_id delta)) →
  let st := replay ∅ deltas in
  entity_history st etype eid = Raise KeyError ∧
  (∀ i, entity_data st etype eid i = Raise KeyError) ∧
  (∀ i conn, get_entity st etype eid i conn = Raise KeyError) ∧
  (∀ (st' : ModelState) etype' eid' i conn,
     get_entity st' etype' eid' i conn = Ok None →
     ∃ h, entity_history st' etype' eid' = Ok h ∧
          (i < - Z.of_nat (length h) ∨ Z.of_nat (length h) ≤ i)).
Proof.
  intros Hds st.
  assert (entity_history st etype eid = Raise KeyError) as Hh.
  { apply replay_no_history; [|done]. unfold entity_history.
    by rewrite lookup_empty. }
  split; [done|]. split; [|split].
  - intros i. by eapply entity_data_no_history.
  - intros i conn. by eapply get_entity_no_history.
  - intros st' etype' eid' i conn Hnone.
    destruct (entity_history st' etype' eid') as [h|e] eqn:Hh'.
    + exists h. split; [done|].
      apply (get_entity_None_iff _ _ _ _ _ _ Hh') in Hnone. lia.
    + rewrite (get_entity_no_history _ _ _ _ _ _ Hh') in Hnone. done.
Qed.

Lemma no_history_raises_KeyError_witness :
  get_entity machine0_changed "unit" "0" (-1) true = Raise KeyError.
Proof.
  apply (no_history_raises_KeyError [add_machine0; change_machine0] "unit" "0").
  intros delta Hin [Ht _].
  apply elem_of_cons in Hin as [->|Hin]; [discriminate Ht|].
  apply elem_of_cons in Hin as [->|Hin]; [discriminate Ht|].
  by apply elem_of_nil in Hin.
Defined.

(** * Further properties of the model state and of the entities *)

(** ** What [get_entity] returns *)

Lemma get_entity_Some_inv (st : ModelState) etype eid i conn e :
  get_entity st etype eid i conn = Ok (Some e) →
  ∃ h x, entity_history st etype eid = Ok h ∧
         e = mk_entity etype eid (absolute_index h i) conn ∧
         py_getitem h (absolute_index h i) = Ok x.
Proof.
  intros Hget. destruct (entity_history st etype eid) as [h|err] eqn:Hh.
  - rewrite (get_entity_Ok _ _ _ _ _ _ Hh) in Hget.
    destruct (py_getitem h (absolute_index h i)) as [x|err] eqn:Hx;
      [|discriminate Hget].
    exists h, x. by inversion Hget.
  - by rewrite (get_entity_no_history _ _ _ _ _ _ Hh) in Hget.
Qed.

(** X1: an entity [get_entity] returns has the type, the id and the
    connected flag asked for, and its data can be read in that state: its
    index is inside the history. *)
Theorem get_entity_readable (st : ModelState) (etype eid : string) (i : Z)
    (conn : bool) (e : ModelEntity) :
  get_entity st etype eid i conn = Ok (Some e) →
  entity_type e = etype ∧ entity_id e = eid ∧ connected e = conn ∧
  ∃ x, entity_view_data st e = Ok x.
Proof.
  intros Hget.
  destruct (get_entity_Some_inv _ _ _ _ _ _ Hget) as (h & x & Hh & -> & Hx).
  repeat split. exists x. unfold entity_view_data. simpl.
  by rewrite (entity_data_Ok _ _ _ _ _ Hh).
Qed.

Lemma get_entity_readable_witness :
  ∃ x, entity_view_data machine0_three (mk_entity "machine" "0" 1 false) = Ok x.
Proof.
  apply (get_entity_readable machine0_three "machine" "0" (-2) false).
  vm_compute. reflexivity.
Defined.

Lemma get_entity_in_range_inv (st : ModelState) etype eid h i conn :
  entity_history st etype eid = Ok h →
  - Z.of_nat (length h) ≤ i < Z.of_nat (length h) →
  get_entity st etype eid i conn =
    Ok (Some (mk_entity etype eid (absolute_index h i) conn)) ∧
  py_getitem h (absolute_index h i) = py_getitem h i.
Proof.
  intros Hh Hi. rewrite (get_entity_Ok _ _ _ _ _ _ Hh).
  assert (py_getitem h (absolute_index h i) = py_getitem h i) as Heq.
  { unfold absolute_index. case_bool_decide as Hneg; [|done].
    rewrite py_getitem_nonneg by lia. by rewrite (py_getitem_neg h i) by lia. }
  rewrite Heq. destruct (py_getitem_in_range h i Hi) as [x ->]. done.
Qed.

(** X2: for an index inside the history, counted from the start or from
    the end, [get_entity] returns an entity that reads the snapshot [h[i]]
    of Python; an index below -1 is replaced by the position counted from
    the start, the others are kept. *)
Theorem get_entity_in_range (st : ModelState) (etype eid : string)
    (h : history) (i : Z) (conn : bool) :
  entity_history st etype eid = Ok h →
  - Z.of_nat (length h) ≤ i < Z.of_nat (length h) →
  ∃ e, get_entity st etype eid i conn = Ok (Some e) ∧
       entity_view_data st e = py_getitem h i ∧
       _history_index e =
         (if bool_decide (i < -1) then i + Z.of_nat (length h) else i).
Proof.
  intros Hh Hi.
  destruct (get_entity_in_range_inv _ _ _ _ _ conn Hh Hi) as [Hget Hread].
  eexists. split; [exact Hget|]. split.
  - unfold entity_view_data. simpl. by rewrite (entity_data_Ok _ _ _ _ _ Hh).
  - simpl. unfold absolute_index.
    case_bool_decide; case_bool_decide; try done; lia.
Qed.

Lemma entity_history_machine0_three :
  entity_history machine0_three "machine" "0" =
    Ok [Some alive_data; Some dying_data; Some alive_data].
Proof. vm_compute. reflexivity. Qed.

Lemma get_entity_in_range_witness :
  ∃ e, get_entity machine0_three "machine" "0" (-3) false = Ok (Some e) ∧
       entity_view_data machine0_three e =
         py_getitem [Some alive_data; Some dying_data; Some alive_data] (-3) ∧
       _history_index e = 0.
Proof.
  apply (get_entity_in_range machine0_three "machine" "0" _ (-3) false
           entity_history_machine0_three).
  simpl. lia.
Defined.

(** X3: the only exception [get_entity] lets out is the [KeyError] of an
    entity without a history; an [IndexError] never escapes it. *)
Theorem get_entity_raises_only_KeyError (st : ModelState) (etype eid : string)
    (i : Z) (conn : bool) (err : exn) :
  get_entity st etype eid i conn = Raise err →
  err = KeyError ∧ entity_history st etype eid = Raise KeyError.
Proof.
  intros Hget. destruct (entity_history st etype eid) as [h|err'] eqn:Hh.
  - rewrite (get_entity_Ok _ _ _ _ _ _ Hh) in Hget.
    by destruct (py_getitem h (absolute_index h i)).
  - rewrite (get_entity_no_history _ _ _ _ _ _ Hh) in Hget.
    rewrite (entity_history_Raise _ _ _ _ Hh). by inversion Hget.
Qed.

Lemma get_entity_raises_only_KeyError_witness :
  KeyError = KeyError ∧
  entity_history machine0_added "unit" "0" = Raise KeyError.
Proof.
  apply (get_entity_raises_only_KeyError machine0_added "unit" "0" 7 true).
  vm_compute. reflexivity.
Defined.

(** ** What [apply_delta] hands to the observers *)

Lemma apply_delta_some_old (st : ModelState) delta :
  ∃ old,
    snd (apply_delta st delta) =
      Ok (Some old, mk_entity (entity delta) (get_id delta) (-1) true) ∧
    entity_type old = entity delta ∧ entity_id old = get_id delta ∧
    connected old = false.
Proof.
  rewrite apply_delta_snd. unfold previous. simpl.
  pose proof (entity_history_state_after st delta) as Hh.
  set (h := appended _ delta) in Hh.
  assert (h ≠ []) as Hne by apply appended_nonempty.
  assert (1 ≤ length h)%nat as Hlen by (destruct h; [done | simpl; lia]).
  destruct (get_entity (state_after st delta) (entity delta) (get_id delta)
              (-1 - 1) false) as [[old|]|err] eqn:Hget.
  - exists old. split; [done|].
    destruct (get_entity_Some_inv _ _ _ _ _ _ Hget) as (h' & x & _ & -> & _).
    done.
  - apply (get_entity_None_iff _ _ _ _ _ _ Hh) in Hget. lia.
  - rewrite (get_entity_Ok _ _ _ _ _ _ Hh) in Hget.
    by destruct (py_getitem h (absolute_index h (-1 - 1))).
Qed.

(** C1, as amended: for every delta, [apply_delta] returns a pair whose
    [new] is never [None]: it is the connected entity at index -1, which
    reads the delta's data, or is dead after a removal.  For a removal,
    [old] is a disconnected entity reading the data carried by the delta,
    the snapshot just before the tombstone.  For a delta that is not a
    removal and an entity that already has a latest snapshot [S], [old] is
    a disconnected entity reading [S]. *)
Theorem apply_delta_old_new (st : ModelState) (delta : EntityDelta) :
  let st' := fst (apply_delta st delta) in
  let new := mk_entity (entity delta) (get_id delta) (-1) true in
  ∃ old,
    snd (apply_delta st delta) = Ok (old, new) ∧
    (if bool_decide (type delta = "remove"%string)
     then entity_view_data st' new = Ok None ∧ dead st' new = Ok true
     else entity_view_data st' new = Ok (data delta)) ∧
    (type delta = "remove"%string →
     ∃ o, old = Some o ∧
          entity_type o = entity delta ∧ entity_id o = get_id delta ∧
          connected o = false ∧
          entity_view_data st' o = Ok (data delta)) ∧
    (type delta ≠ "remove"%string →
     ∀ h, entity_history st (entity delta) (get_id delta) = Ok h → h ≠ [] →
          ∃ o prior, old = Some o ∧
                 entity_type o = entity delta ∧ entity_id o = get_id delta ∧
                 connected o = false ∧
                 entity_data st (entity delta) (get_id delta) (-1) = Ok prior ∧
                 entity_view_data st' o = Ok prior).
Proof.
  intros st' new. unfold st'. simpl fst.
  destruct (apply_delta_some_old st delta) as (old & Hres & Ht & Hid & Hconn).
  fold new in Hres. exists (Some old). split; [exact Hres|]. split; [|split].
  - unfold new. case_bool_decide as Hrm.
    + assert (entity_view_data (state_after st delta)
                (mk_entity (entity delta) (get_id delta) (-1) true) = Ok None)
        as Hnone.
      { rewrite view_data_state_after. unfold appended.
        rewrite bool_decide_eq_true_2 by done. apply py_getitem_last. }
      split; [exact Hnone | by apply dead_of_tombstone].
    + rewrite view_data_state_after, (appended_not_remove _ delta Hrm).
      apply py_getitem_last.
  - intros Hrm.
    destruct (apply_delta_remove st delta Hrm)
      as (old' & new' & Hres' & _ & _ & _ & _ & Hread).
    rewrite Hres in Hres'. inversion Hres'; subst old' new'.
    rewrite bool_decide_eq_true_2 in Hread by done.
    destruct Hread as (Hold & _). simpl fst in Hold.
    exists old. by repeat split.
  - intros Hrm h Hh Hne.
    destruct (apply_delta_update st delta h Hrm Hh Hne)
      as (old' & new' & Hres' & _ & _ & _ & _ & Hread).
    rewrite Hres in Hres'. inversion Hres'; subst old' new'.
    rewrite bool_decide_eq_false_2 in Hread by done.
    destruct Hread as ((S' & Hprior & Hold) & _). simpl fst in Hold.
    exists old, S'. by repeat split.
Qed.

Lemma apply_delta_old_new_witness :
  ∃ o prior,
    snd (apply_delta machine0_added change_machine0) =
      Ok (Some o, mk_entity "machine" "0" (-1) true) ∧
    connected o = false ∧
    entity_data machine0_added "machine" "0" (-1) = Ok prior ∧
    entity_view_data (fst (apply_delta machine0_added change_machine0)) o =
      Ok prior.
Proof.
  destruct (apply_delta_old_new machine0_added change_machine0)
    as (old & Hres & _ & _ & Hupdate).
  destruct (Hupdate ltac:(discriminate) [Some alive_data]
              entity_history_machine0_added ltac:(discriminate))
    as (o & prior & -> & _ & _ & Hconn & Hprior & Hold).
  exists o, prior. split; [exact Hres|]. split; [exact Hconn|].
  split; [exact Hprior | exact Hold].
Defined.

(** X4: [apply_delta] never fails and never returns [None] for the old
    object, also for the first delta of an entity: it returns a
    disconnected entity of the delta's type and id, with the connected
    entity at index -1 as the new object. *)
Theorem apply_delta_old_never_None (st : ModelState) (delta : EntityDelta) :
  ∃ old,
    apply_delta st delta =
      (state_after st delta,
       Ok (Some old, mk_entity (entity delta) (get_id delta) (-1) true)) ∧
    entity_type old = entity delta ∧ entity_id old = get_id delta ∧
    connected old = false.
Proof.
  destruct (apply_delta_some_old st delta) as (old & Hres & Hold).
  exists old. split; [|exact Hold].
  rewrite <- Hres. reflexivity.
Qed.

(** X5: with the pair [apply_delta] returns, a [ModelObserver] computes the
    handler name from the type of the delta itself,
    [on_<entity>_<type>]: the rewriting to ['add'] for an old object that
    is [None] never applies, and the method called is that handler when
    the observer has it, [on_change] otherwise. *)
Theorem observer_handler_after_apply_delta (st : ModelState)
    (delta : EntityDelta) (attrs : gset string) :
  ∃ old new,
    snd (apply_delta st delta) = Ok (old, new) ∧
    handler_name delta old (Some new) =
      ("on_" +:+ entity delta +:+ "_" +:+ type delta)%string ∧
    observer_method attrs delta old (Some new) =
      (if bool_decide
            (("on_" +:+ entity delta +:+ "_" +:+ type delta)%string ∈ attrs)
       then ("on_" +:+ entity delta +:+ "_" +:+ type delta)%string
       else "on_change"%string).
Proof.
  destruct (apply_delta_some_old st delta) as (old & Hres & _).
  eexists _, _. split; [exact Hres|]. split; reflexivity.
Qed.

(** ** Entities and later deltas *)

Lemma run_calls_prefix (st : ModelState) calls etype eid h :
  entity_history st etype eid = Ok h →
  ∃ suffix, entity_history (run_calls st calls) etype eid = Ok (h ++ suffix).
Proof.
  revert st h. induction calls as [|c calls IH]; intros st h Hh.
  - exists []. by rewrite app_nil_r.
  - destruct (run_call_prefix st c etype eid h Hh) as (s1 & Hs1).
    destruct (IH _ _ Hs1) as (s2 & Hs2).
    exists (s1 ++ s2). by rewrite app_assoc.
Qed.

(** X6: an entity at a non-negative index is pinned: whatever calls are
    made afterwards, deltas included, it reads the snapshot it read
    before. *)
Theorem entity_pinned (st : ModelState) (calls : list api_call)
    (e : ModelEntity) (x : snapshot) :
  0 ≤ _history_index e →
  entity_view_data st e = Ok x →
  entity_view_data (run_calls st calls) e = Ok x.
Proof.
  intros Hi Hx. unfold entity_view_data in *.
  destruct (entity_history st (entity_type e) (entity_id e)) as [h|err] eqn:Hh.
  - rewrite (entity_data_Ok _ _ _ _ _ Hh) in Hx.
    destruct (run_calls_prefix st calls _ _ _ Hh) as (suffix & Hafter).
    rewrite (entity_data_Ok _ _ _ _ _ Hafter).
    rewrite py_getitem_nonneg in Hx |- * by lia.
    destruct (h !! Z.to_nat (_history_index e)) as [y|] eqn:Hy;
      [|discriminate Hx].
    by rewrite (lookup_app_l_Some _ _ _ _ Hy).
  - by rewrite (entity_data_no_history _ _ _ _ _ Hh) in Hx.
Qed.

Lemma entity_pinned_witness :
  entity_view_data
    (run_calls machine0_added
       [CallApplyDelta change_machine0; CallApplyDelta remove_machine0])
    (mk_entity "machine" "0" 0 false) = Ok (Some alive_data).
Proof.
  apply (entity_pinned machine0_added).
  - simpl. lia.
  - vm_compute. reflexivity.
Defined.

(** ** Dead and alive *)

Lemma alive_of_dead (st : ModelState) e b :
  dead st e = Ok b → alive st e = Ok (negb b).
Proof. intros Hd. unfold alive. by rewrite Hd. Qed.

(** X7: once a removal is applied, every entity of that type and id that
    [get_entity] returns, at any index and also on snapshots older than the
    removal, is dead and not alive. *)
Theorem dead_after_removal (st : ModelState) (delta : EntityDelta) (i : Z)
    (conn : bool) (e : ModelEntity) :
  type delta = "remove"%string →
  get_entity (fst (apply_delta st delta)) (entity delta) (get_id delta) i conn
    = Ok (Some e) →
  dead (fst (apply_delta st delta)) e = Ok true ∧
  alive (fst (apply_delta st delta)) e = Ok false.
Proof.
  intros Hrm Hget. simpl fst in *.
  destruct (get_entity_Some_inv _ _ _ _ _ _ Hget) as (h & x & Hh & -> & Hx).
  assert (dead (state_after st delta)
            (mk_entity (entity delta) (get_id delta) (absolute_index h i) conn)
          = Ok true) as Hdead.
  { eapply (dead_once_removed _ _ h x); simpl.
    - exact Hh.
    - rewrite entity_history_state_after in Hh. inversion Hh as [Heq].
      unfold appended. rewrite bool_decide_eq_true_2 by done.
      apply py_getitem_last.
    - unfold entity_view_data. simpl.
      by rewrite (entity_data_Ok _ _ _ _ _ Hh). }
  split; [exact Hdead|]. by rewrite (alive_of_dead _ _ _ Hdead).
Qed.

Lemma dead_after_removal_witness :
  dead machine0_removed (mk_entity "machine" "0" 0 false) = Ok true ∧
  alive machine0_removed (mk_entity "machine" "0" 0 false) = Ok false.
Proof.
  apply (dead_after_removal machine0_changed remove_machine0 0 false).
  - reflexivity.
  - vm_compute. reflexivity.
Defined.

(** X8: once a delta that is not a removal and carries a data dict is
    applied, every entity of that type and id whose own snapshot is a data
    dict is alive: the new object, and also entities on snapshots recorded
    before an earlier removal. *)
Theorem alive_after_update (st : ModelState) (delta : EntityDelta)
    (e : ModelEntity) (m m' : data_dict) :
  type delta ≠ "remove"%string →
  data delta = Some m →
  entity_type e = entity delta → entity_id e = get_id delta →
  entity_view_data (fst (apply_delta st delta)) e = Ok (Some m') →
  dead (fst (apply_delta st delta)) e = Ok false ∧
  alive (fst (apply_delta st delta)) e = Ok true.
Proof.
  intros Hrm Hdata Ht Hid Hread. simpl fst in *.
  assert (dead (state_after st delta) e = Ok false) as Hdead.
  { unfold dead. rewrite Hread. simpl. rewrite Ht, Hid.
    rewrite (entity_data_Ok _ _ _ _ _ (entity_history_state_after st delta)).
    rewrite (appended_not_remove _ delta Hrm), py_getitem_last, Hdata.
    done. }
  split; [exact Hdead|]. by rewrite (alive_of_dead _ _ _ Hdead).
Qed.

Lemma alive_after_update_witness :
  dead (fst (apply_delta machine0_removed add_machine0))
       (mk_entity "machine" "0" 0 false) = Ok false ∧
  alive (fst (apply_delta machine0_removed add_machine0))
        (mk_entity "machine" "0" 0 false) = Ok true.
Proof.
  apply (alive_after_update machine0_removed add_machine0
           (mk_entity "machine" "0" 0 false) alive_data alive_data).
  - discriminate.
  - reflexivity.
  - reflexivity.
  - reflexivity.
  - vm_compute. reflexivity.
Defined.

(** ** Navigation inside the history *)

(** X9: for an entity with a history, [latest()] returns a current entity
    of the same type and id that reads the latest snapshot, and calling
    [latest()] on the result returns it again. *)
Theorem latest_is_current (st : ModelState) (e : ModelEntity) (h : history) :
  entity_history st (entity_type e) (entity_id e) = Ok h →
  h ≠ [] →
  ∃ e', latest st e = Ok (Some e') ∧
        current e' = true ∧
        entity_type e' = entity_type e ∧ entity_id e' = entity_id e ∧
        entity_view_data st e' = py_getitem h (-1) ∧
        latest st e' = Ok (Some e').
Proof.
  intros Hh Hne. unfold latest. case_bool_decide as Hidx.
  - exists e. split; [done|]. unfold current.
    rewrite !bool_decide_eq_true_2 by done. repeat split.
    unfold entity_view_data. rewrite Hidx.
    by rewrite (entity_data_Ok _ _ _ _ _ Hh).
  - rewrite (get_entity_latest _ _ _ _ _ Hh Hne).
    eexists. split; [done|]. repeat split.
    unfold entity_view_data. simpl.
    by rewrite (entity_data_Ok _ _ _ _ _ Hh).
Qed.

Lemma latest_is_current_witness :
  ∃ e', latest machine0_three (mk_entity "machine" "0" 0 false) = Ok (Some e') ∧
        current e' = true ∧
        entity_type e' = "machine"%string ∧ entity_id e' = "0"%string ∧
        entity_view_data machine0_three e' =
          py_getitem [Some alive_data; Some dying_data; Some alive_data] (-1) ∧
        latest machine0_three e' = Ok (Some e').
Proof.
  apply (latest_is_current machine0_three (mk_entity "machine" "0" 0 false)
           _ entity_history_machine0_three).
  discriminate.
Defined.

(** X10: [previous()] of an entity at a position [i] from 1 on inside the
    history is the disconnected entity at position [i - 1], which reads the
    snapshot before; [previous()] of the entity at index -1 of a history
    of two snapshots or more is the disconnected entity at the last
    position but one. *)
Theorem previous_in_history (st : ModelState) (etype eid : string)
    (h : history) (conn : bool) :
  entity_history st etype eid = Ok h →
  (∀ i, 1 ≤ i < Z.of_nat (length h) →
        previous st (mk_entity etype eid i conn) =
          Ok (Some (mk_entity etype eid (i - 1) false)) ∧
        entity_view_data st (mk_entity etype eid (i - 1) false) =
          py_getitem h (i - 1)) ∧
  (2 ≤ Z.of_nat (length h) →
   previous st (mk_entity etype eid (-1) conn) =
     Ok (Some (mk_entity etype eid (Z.of_nat (length h) - 2) false))).
Proof.
  intros Hh. split.
  - intros i Hi. unfold previous. simpl.
    destruct (get_entity_in_range_inv st etype eid h (i - 1) false Hh)
      as [Hget _]; [lia|].
    rewrite Hget. unfold absolute_index.
    rewrite bool_decide_eq_false_2 by lia. split; [done|].
    unfold entity_view_data. simpl.
    by rewrite (entity_data_Ok _ _ _ _ _ Hh).
  - intros Hlen. unfold previous. simpl.
    destruct (get_entity_in_range_inv st etype eid h (-1 - 1) false Hh)
      as [Hget _]; [lia|].
    rewrite Hget. unfold absolute_index.
    rewrite bool_decide_eq_true_2 by lia.
    by replace (-1 - 1 + Z.of_nat (length h)) with (Z.of_nat (length h) - 2)
      by lia.
Qed.

Lemma previous_in_history_witness :
  previous machine0_three (mk_entity "machine" "0" 2 true) =
    Ok (Some (mk_entity "machine" "0" (2 - 1) false)) ∧
  entity_view_data machine0_three (mk_entity "machine" "0" (2 - 1) false) =
    py_getitem [Some alive_data; Some dying_data; Some alive_data] (2 - 1).
Proof.
  apply (proj1 (previous_in_history machine0_three "machine" "0" _ true
                  entity_history_machine0_three) 2).
  simpl. lia.
Defined.

(** ** The map of living entities *)

(** X11: for an entity type the state has never seen, the map of living
    entities is the empty map, while reading a history or getting an
    entity of that type raises [KeyError] for every id. *)
Theorem unknown_type_empty_map (st : ModelState) (etype : string) :
  st !! etype = None →
  _live_entity_map st etype = Ok ∅ ∧
  ∀ eid i conn,
    entity_history st etype eid = Raise KeyError ∧
    get_entity st etype eid i conn = Raise KeyError.
Proof.
  intros Hnone. split.
  - unfold _live_entity_map. rewrite Hnone. simpl.
    by rewrite map_to_list_empty.
  - intros eid i conn.
    assert (entity_history st etype eid = Raise KeyError) as Hh
      by (unfold entity_history; by rewrite Hnone).
    split; [done|]. by eapply get_entity_no_history.
Qed.

Lemma unknown_type_empty_map_witness :
  units machine0_changed = Ok ∅ ∧
  ∀ eid i conn,
    entity_history machine0_changed "unit" eid = Raise KeyError ∧
    get_entity machine0_changed "unit" eid i conn = Raise KeyError.
Proof.
  apply (unknown_type_empty_map machine0_changed "unit").
  vm_compute. reflexivity.
Defined.

Lemma is_live_last (h : history) :
  is_live h = true → ∃ m, py_getitem h (-1) = Ok (Some m).
Proof.
  unfold is_live. intros Hlive.
  destruct h as [|a h] using rev_ind; [done|].
  rewrite last_snoc in Hlive. rewrite py_getitem_last.
  destruct a as [m|]; [eauto | done].
Qed.

(** X12: in any state the watcher can build, every value of the map of
    living entities is an entity, never [None]: the current, connected
    entity of that type and id, and it is alive. *)
Theorem live_entities_alive (st : ModelState) (etype eid : string)
    (m : gmap string (option ModelEntity)) (v : option ModelEntity) :
  reachable st →
  _live_entity_map st etype = Ok m →
  m !! eid = Some v →
  ∃ e, v = Some e ∧
       entity_type e = etype ∧ entity_id e = eid ∧
       current e = true ∧ connected e = true ∧
       alive st e = Ok true.
Proof.
  intros Hst Hm Hv.
  destruct (live_entity_map_lookup st etype (reachable_nonempty st Hst))
    as (m' & Hm' & Hlook).
  rewrite Hm in Hm'. inversion Hm'; subst m'.
  rewrite Hlook in Hv. unfold live_entry in Hv.
  destruct (entity_history st etype eid) as [h|err] eqn:Hh; [|done].
  destruct (is_live h) eqn:Hlive; [|done].
  inversion Hv; subst v. eexists. split; [done|]. repeat split.
  destruct (is_live_last h Hlive) as (d & Hd).
  apply alive_of_dead with (b := false). unfold dead, entity_view_data. simpl.
  by rewrite !(entity_data_Ok _ _ _ _ _ Hh), Hd.
Qed.

Lemma live_entities_alive_witness :
  ∃ e, Some (mk_entity "machine" "0" (-1) true) = Some e ∧
       entity_type e = "machine"%string ∧ entity_id e = "0"%string ∧
       current e = true ∧ connected e = true ∧
       alive machine0_changed e = Ok true.
Proof.
  apply (live_entities_alive machine0_changed "machine" "0"
           {[ "0"%string := Some (mk_entity "machine" "0" (-1) true) ]}).
  - exact reachable_machine0_changed.
  - vm_compute. reflexivity.
  - vm_compute. reflexivity.
Defined.

Lemma default_by_id_state_after_other (st : ModelState) delta etype :
  etype ≠ entity delta →
  default ∅ (state_after st delta !! etype) = default ∅ (st !! etype).
Proof. intros Hne. unfold state_after. by rewrite lookup_insert_ne. Qed.

Lemma get_entity_state_after_other (st : ModelState) delta etype eid i conn :
  ¬ (etype = entity delta ∧ eid = get_id delta) →
  get_entity (state_after st delta) etype eid i conn =
    get_entity st etype eid i conn.
Proof.
  intros Hne. unfold get_entity, entity_data.
  by rewrite (entity_history_state_after_other st delta etype eid Hne).
Qed.

Lemma live_items_state_after_other (st : ModelState) delta etype items :
  etype ≠ entity delta →
  live_items (state_after st delta) etype items = live_items st etype items.
Proof.
  intros Hne. induction items as [|[eid h] rest IH]; [done|].
  simpl. rewrite IH.
  rewrite get_entity_state_after_other; [done|]. by intros [? _].
Qed.

(** X13: a delta only touches the entity it is for: [get_entity] on any
    other type or id answers as before the delta, and the maps of living
    entities of the other types are the same as before. *)
Theorem apply_delta_frame (st : ModelState) (delta : EntityDelta) :
  (∀ etype eid i conn,
     ¬ (etype = entity delta ∧ eid = get_id delta) →
     get_entity (fst (apply_delta st delta)) etype eid i conn =
       get_entity st etype eid i conn) ∧
  (∀ etype,
     etype ≠ entity delta →
     _live_entity_map (fst (apply_delta st delta)) etype =
       _live_entity_map st etype).
Proof.
  simpl fst. split.
  - intros etype eid i conn Hne. by apply get_entity_state_after_other.
  - intros etype Hne. unfold _live_entity_map.
    rewrite (default_by_id_state_after_other st delta etype Hne).
    by rewrite (live_items_state_after_other st delta etype _ Hne).
Qed.

Lemma apply_delta_frame_witness :
  get_entity (fst (apply_delta machine0_changed remove_machine0))
             "machine" "1" 0 true =
    get_entity machine0_changed "machine" "1" 0 true.
Proof.
  apply (proj1 (apply_delta_frame machine0_changed remove_machine0)).
  intros [_ Hid]. discriminate Hid.
Defined.

(** ** Histories after a list of deltas *)

Lemma history_or_empty_state_after (st : ModelState) delta etype eid :
  history_or_empty (state_after st delta) etype eid =
    if delta_for etype eid delta
    then appended (history_or_empty st etype eid) delta
    else history_or_empty st etype eid.
Proof.
  unfold delta_for. case_bool_decide as Hfor.
  - destruct Hfor as [<- <-].
    apply history_or_empty_Ok, entity_history_state_after.
  - assert (¬ (etype = entity delta ∧ eid = get_id delta)) as Hne
      by (intros [-> ->]; by apply Hfor).
    pose proof (entity_history_state_after_other st delta etype eid Hne) as Heq.
    destruct (entity_history st etype eid) as [h|err] eqn:Hh.
    + by rewrite (history_or_empty_Ok _ _ _ _ Heq),
                 (history_or_empty_Ok _ _ _ _ Hh).
    + by rewrite (history_or_empty_Raise _ _ _ _ Heq),
                 (history_or_empty_Raise _ _ _ _ Hh).
Qed.

Lemma length_appended h delta :
  length (appended h delta) =
    (length h + if bool_decide (type delta = "remove"%string) then 2 else 1)%nat.
Proof.
  unfold appended. case_bool_decide; rewrite ?length_app; simpl; lia.
Qed.

(** X14: after a list of deltas, the history of an entity is longer by one
    snapshot for each delta that is for it, and by one more for each of its
    removals; the deltas for other entities add nothing to it. *)
Theorem history_length_after_deltas (st : ModelState)
    (deltas : list EntityDelta) (etype eid : string) :
  length (history_or_empty (replay st deltas) etype eid) =
    (length (history_or_empty st etype eid) +
     snapshots_appended etype eid deltas)%nat.
Proof.
  revert st. induction deltas as [|d ds IH]; intros st; simpl.
  - lia.
  - change (replay (fst (apply_delta st d)) ds) with
      (replay (state_after st d) ds).
    rewrite IH, history_or_empty_state_after.
    destruct (delta_for etype eid d); [|lia].
    rewrite length_appended. lia.
Qed.

Lemma tombstones_follow_data_appended h delta :
  data delta ≠ None →
  tombstones_follow_data h → tombstones_follow_data (appended h delta).
Proof.
  intros Hdata Hh. destruct (data delta) as [m|] eqn:Hd; [|done].
  assert (tombstones_follow_data (h ++ [Some m])) as Hh1.
  { intros i Hi. apply lookup_app_Some in Hi as [Hi|[Hge Hi]].
    - destruct (Hh i Hi) as (m' & Hpos & Hprev).
      exists m'. split; [done|]. by apply lookup_app_l_Some.
    - destruct (i - length h)%nat; simpl in Hi; [discriminate Hi|].
      by rewrite lookup_nil in Hi. }
  unfold appended. rewrite Hd. case_bool_decide; [|exact Hh1].
  intros i Hi. apply lookup_app_Some in Hi as [Hi|[Hge Hi]].
  - destruct (Hh1 i Hi) as (m' & Hpos & Hprev).
    exists m'. split; [done|]. by apply lookup_app_l_Some.
  - rewrite length_app in Hge. simpl in Hge.
    exists m. split; [lia|].
    assert (i = S (length h)) as ->.
    { apply lookup_lt_Some in Hi. simpl in Hi.
      rewrite length_app in Hi. simpl in Hi. lia. }
    replace (S (length h) - 1)%nat with (length h) by lia.
    rewrite lookup_app_l by (rewrite length_app; simpl; lia).
    by rewrite list_lookup_middle.
Qed.

Lemma replay_tombstones (st : ModelState) deltas :
  Forall (fun d => data d ≠ None) deltas →
  (∀ etype eid h,
     entity_history st etype eid = Ok h → tombstones_follow_data h) →
  ∀ etype eid h,
    entity_history (replay st deltas) etype eid = Ok h →
    tombstones_follow_data h.
Proof.
  revert st. induction deltas as [|d ds IH]; intros st Hds Hst; [exact Hst|].
  apply Forall_cons in Hds as [Hd Hds]. simpl.
  apply IH; [exact Hds|]. simpl fst.
  intros etype eid h Hh.
  destruct (decide (etype = entity d ∧ eid = get_id d)) as [[-> ->]|Hne].
  - rewrite entity_history_state_after in Hh. inversion Hh.
    apply tombstones_follow_data_appended; [done|].
    destruct (entity_history st (entity d) (get_id d)) as [h0|err] eqn:Hh0.
    + rewrite (history_or_empty_Ok _ _ _ _ Hh0). by eapply Hst.
    + rewrite (history_or_empty_Raise _ _ _ _ Hh0).
      intros i Hi. by rewrite lookup_nil in Hi.
  - rewrite entity_history_state_after_other in Hh by done. eauto.
Qed.

(** X15: when every delta received carries a data dict, removals
    included, every tombstone of every history comes right after a data
    dict: no history starts with a tombstone and no two tombstones follow
    each other, so the last state before a removal can always be read. *)
Theorem tombstones_after_data (deltas : list EntityDelta) (etype eid : string)
    (h : history) :
  Forall (fun d => data d ≠ None) deltas →
  entity_history (replay ∅ deltas) etype eid = Ok h →
  tombstones_follow_data h.
Proof.
  intros Hds Hh. eapply (replay_tombstones ∅ deltas Hds); [|exact Hh].
  intros etype' eid' h' Hh'. unfold entity_history in Hh'.
  by rewrite lookup_empty in Hh'.
Qed.

Lemma tombstones_after_data_witness :
  tombstones_follow_data
    [Some alive_data; Some dying_data; Some dying_data; None].
Proof.
  apply (tombstones_after_data
           [add_machine0; change_machine0; remove_machine0] "machine" "0").
  - repeat constructor; discriminate.
  - vm_compute. reflexivity.
Defined.

(** ** A batch of deltas and the observers *)

Lemma length_notify_observers (observers : gset nat) delta old new :
  length (_notify_observers observers delta old new) = size observers.
Proof. unfold _notify_observers. by rewrite length_fmap. Qed.

Lemma notify_observers_scheduled (observers : gset nat) deltas delta old :
  delta ∈ deltas →
  Forall (scheduled_for observers deltas)
    (_notify_observers observers delta (Some old)
       (mk_entity (entity delta) (get_id delta) (-1) true)).
Proof.
  intros Hin. unfold _notify_observers. apply Forall_fmap, Forall_forall.
  intros o Ho. apply elem_of_elements in Ho. by repeat split.
Qed.

(** X16: a batch of K deltas with M observers registered schedules K times
    M calls and never fails; the state after it is the state after the
    deltas applied in order; every call is for a delta of the batch and an
    observer of the set, with an old object that is not [None] and the
    connected entity at index -1 of its delta as the new object. *)
Theorem watch_batch_notifies_all (st : ModelState) (observers : gset nat)
    (deltas : list EntityDelta) :
  ∃ scheduled,
    watch_batch st observers deltas = (replay st deltas, Ok scheduled) ∧
    length scheduled = (length deltas * size observers)%nat ∧
    Forall (scheduled_for observers deltas) scheduled.
Proof.
  revert st. induction deltas as [|d ds IH]; intros st.
  - exists []. by repeat split.
  - destruct (apply_delta_some_old st d) as (old & Hres & _).
    destruct (IH (state_after st d)) as (more & Hmore & Hlen & Hall).
    simpl. unfold apply_delta in Hres |- *. simpl in Hres. rewrite Hres.
    fold (apply_delta st d). simpl fst.
    rewrite Hmore. eexists. split; [done|]. split.
    + rewrite length_app, length_notify_observers, Hlen. lia.
    + apply Forall_app. split.
      * apply notify_observers_scheduled. by left.
      * eapply Forall_impl; [exact Hall|].
        intros n (Hin & Ho & Hold & Hnew). repeat split; try done.
        by right.
Qed.

(** X17: registering an observer that is already registered changes
    nothing: the set is the same, and a batch schedules the same calls. *)
Theorem add_observer_twice (st : ModelState) (observers : gset nat)
    (callable_ : nat) (deltas : list EntityDelta) :
  callable_ ∈ observers →
  add_observer observers callable_ = observers ∧
  watch_batch st (add_observer observers callable_) deltas =
    watch_batch st observers deltas.
Proof.
  intros Hin.
  assert (add_observer observers callable_ = observers) as Heq
    by (unfold add_observer; by apply subseteq_union_1_L, singleton_subseteq_l).
  by rewrite Heq.
Qed.

Lemma add_observer_twice_witness :
  add_observer (add_observer ∅ 7%nat) 7%nat = add_observer ∅ 7%nat ∧
  watch_batch ∅ (add_observer (add_observer ∅ 7%nat) 7%nat) [add_machine0] =
    watch_batch ∅ (add_observer ∅ 7%nat) [add_machine0].
Proof.
  apply (add_observer_twice ∅ (add_observer ∅ 7%nat) 7%nat [add_machine0]).
  unfold add_observer. apply elem_of_union_l, elem_of_singleton. reflexivity.
Defined.

(** ** Reading the objects a delta gives *)

Lemma getattr_of_data (st : ModelState) e name (d : snapshot) :
  entity_view_data st e = Ok d →
  getattr st e name =
    match d with
    | None => Raise DeadEntityException
    | Some m => match m !! name with
                | Some v => Ok v
                | None => Raise KeyError
                end
    end.
Proof. intros Hd. unfold getattr. by rewrite Hd. Qed.

(** X18: after a delta that is not a removal, reading a name on the new
    object gives the field of the delta's data, [KeyError] when the data has
    no such field and [DeadEntityException] when the delta carries no data.
    After a removal, reading any name on the new object raises
    [DeadEntityException], and its [previous()] is an entity on which the
    fields of the data carried by the removal are read. *)
Theorem getattr_after_apply_delta (st : ModelState) (delta : EntityDelta)
    (name : string) :
  let st' := fst (apply_delta st delta) in
  let new := mk_entity (entity delta) (get_id delta) (-1) true in
  let field :=
    match data delta with
    | None => Raise DeadEntityException
    | Some m => match m !! name with
                | Some v => Ok v
                | None => Raise KeyError
                end
    end in
  if bool_decide (type delta = "remove"%string)
  then getattr st' new name = Raise DeadEntityException ∧
       ∃ old, previous st' new = Ok (Some old) ∧ getattr st' old name = field
  else getattr st' new name = field.
Proof.
  intros st' new field. unfold st'. simpl fst. case_bool_decide as Hrm.
  - destruct (apply_delta_remove st delta Hrm)
      as (old & new' & Hres & -> & _ & _ & _ & Hread).
    rewrite bool_decide_eq_true_2 in Hread by done.
    destruct Hread as (Hold & Hnew & _). simpl fst in Hold, Hnew.
    split; [by rewrite (getattr_of_data _ _ _ _ Hnew)|].
    exists old. split.
    + rewrite apply_delta_snd in Hres. fold new in Hres.
      destruct (previous (state_after st delta) new) as [o|err];
        simpl in Hres; congruence.
    + by rewrite (getattr_of_data _ _ _ _ Hold).
  - apply getattr_of_data. unfold new. rewrite view_data_state_after.
    rewrite (appended_not_remove _ delta Hrm). apply py_getitem_last.
Qed.

Lemma live_entry_state_after_other (st : ModelState) delta etype eid :
  ¬ (etype = entity delta ∧ eid = get_id delta) →
  live_entry (state_after st delta) etype eid = live_entry st etype eid.
Proof.
  intros Hne. unfold live_entry.
  by rewrite (entity_history_state_after_other st delta etype eid Hne).
Qed.

(** X19: in a state the watcher can build, a delta changes the maps of
    living entities at its own type and id at most: every other id of
    every type has the same entry, or none, before and after the delta. *)
Theorem live_entity_map_frame (st : ModelState) (delta : EntityDelta)
    (etype eid : string) (m m' : gmap string (option ModelEntity)) :
  reachable st →
  ¬ (etype = entity delta ∧ eid = get_id delta) →
  _live_entity_map st etype = Ok m →
  _live_entity_map (fst (apply_delta st delta)) etype = Ok m' →
  m' !! eid = m !! eid.
Proof.
  intros Hst Hne Hm Hm'.
  destruct (live_entity_map_lookup st etype (reachable_nonempty st Hst))
    as (m0 & Hm0 & Hlook).
  destruct (live_entity_map_lookup (fst (apply_delta st delta)) etype)
    as (m1 & Hm1 & Hlook').
  { apply reachable_nonempty. by constructor. }
  rewrite Hm in Hm0. rewrite Hm' in Hm1.
  inversion Hm0; subst m0. inversion Hm1; subst m1.
  rewrite Hlook, Hlook'. simpl fst.
  by apply live_entry_state_after_other.
Qed.

Lemma live_entity_map_frame_witness :
  (∅ : gmap string (option ModelEntity)) !! "1"%string =
  ({[ "0"%string := Some (mk_entity "machine" "0" (-1) true) ]}
     : gmap string (option ModelEntity)) !! "1"%string.
Proof.
  apply (live_entity_map_frame machine0_changed remove_machine0 "machine" "1").
  - exact reachable_machine0_changed.
  - intros [_ Hid]. discriminate Hid.
  - vm_compute. reflexivity.
  - vm_compute. reflexivity.
Defined.
